(** * Dynamic query construction in ExpressJobly

    A shallow embedding of the three routines of the repository that build
    SQL text from request data:

    - [sqlForPartialUpdate] (helpers/sql.js), the SET-clause builder;
    - [Company.filterAll] (models/company.js, [Company.#filterAll]);
    - [Job.filterAll] (the Job model, [Job.#filterAll]).

    and the methods around them: the methods of the Company and Job models
    that send these statements to the database ([CompanyModel],
    [JobModel]) and the error handler of the route that applies for a job
    ([UsersRoutes]).

    JavaScript values, objects and the handful of language operators the
    routines use come first, then the routines, then the theorems. *)

From Stdlib Require Import ZArith String Ascii List.
From stdpp Require Import base list strings gmap pretty.

Local Open Scope Z_scope.

(** ** JavaScript values *)

(** The scalars a JSON request body can carry, plus [undefined], which is
    what reading a missing property yields.  Numbers are the integers (the
    filters and identifiers of this application are integer valued). *)
Inductive JsValue : Type :=
| JUndefined
| JNull
| JBool (b : bool)
| JNum (n : Z)
| JStr (s : string).

#[global] Instance JsValue_eq_dec : EqDecision JsValue.
Proof. solve_decision. Defined.

(** [ToBoolean]: the falsy values are [undefined], [null], [false], [0] and
    the empty string. *)
Definition ToBoolean (v : JsValue) : bool :=
  match v with
  | JUndefined | JNull => false
  | JBool b => b
  | JNum n => negb (n =? 0)
  | JStr s => negb (String.eqb s "")
  end.

(** [ToString], as a template literal applies it to a substitution. *)
Definition ToString (v : JsValue) : string :=
  match v with
  | JUndefined => "undefined"
  | JNull => "null"
  | JBool true => "true"
  | JBool false => "false"
  | JNum n => pretty n
  | JStr s => s
  end.

(** [a || b] *)
Definition js_or (a b : JsValue) : JsValue :=
  if ToBoolean a then a else b.

(** [a && b] *)
Definition js_and (a b : JsValue) : JsValue :=
  if ToBoolean a then b else a.

(** [!a] *)
Definition js_not (a : JsValue) : bool := negb (ToBoolean a).

(** ** Objects *)

(** An object is the list of its own enumerable string-keyed properties, in
    the order [Object.keys] enumerates them.  Keys are unique in a JavaScript
    object; the statements that need this say so with [NoDup]. *)
Abbreviation JsObject := (list (string * JsValue)).

Definition Object_keys (o : JsObject) : list string := o.*1.
Definition Object_values (o : JsObject) : list JsValue := o.*2.

(** [o.k] and [o[k]]: the value of the property, [undefined] when missing. *)
Fixpoint js_get (o : JsObject) (k : string) : JsValue :=
  match o with
  | [] => JUndefined
  | (k', v) :: o' => if decide (k' = k) then v else js_get o' k
  end.

(** [a[idx]] on an array: [undefined] out of range. *)
Definition js_index (a : list JsValue) (idx : nat) : JsValue :=
  default JUndefined (a !! idx).

(** [Array.prototype.reduce] with an initial value; the callback receives
    the accumulator, the element and its index. *)
Fixpoint reduce_from {A B : Type} (f : B -> A -> nat -> B)
    (idx : nat) (l : list A) (acc : B) : B :=
  match l with
  | [] => acc
  | x :: l' => reduce_from f (S idx) l' (f acc x idx)
  end.

Definition reduce {A B : Type} (f : B -> A -> nat -> B) (init : B)
    (l : list A) : B :=
  reduce_from f 0 l init.

(** ** Text *)

(** The two characters the source writes with an escape. *)
Definition dquote : string := String "034"%char EmptyString.
Definition nl : string := String "010"%char EmptyString.

(** [Array.prototype.join] on an array of strings. *)
Definition join (sep : string) (l : list string) : string :=
  String.concat sep l.

(** ** Errors *)

(** Modelled from the spec: the error classes of expressError.js, a file
    that is not among the sources.  The specification's MalformedRequest
    is [BadRequestError]; the constructor carries the message it is thrown
    with. *)
Inductive ExpressError : Type :=
| BadRequestError (message : string)
| NotFoundError (message : string).

(** A computation that either throws or returns. *)
Inductive Except (A : Type) : Type :=
| Throw (e : ExpressError)
| Return (a : A).
Arguments Throw {A} e.
Arguments Return {A} a.

(** ** helpers/sql.js *)

(** The alias map [jsToSql] maps a field name to a column name.
    [jsToSql[k]] is the alias, [undefined] when the map has none.  The map
    is read through its own properties: the names every object inherits
    ([constructor], [toString], ...) are not field names of this
    application. *)
Definition alias_get (jsToSql : gmap string string) (k : string) : JsValue :=
  match jsToSql !! k with
  | Some c => JStr c
  | None => JUndefined
  end.

Record SetClause : Type := { setCols : string; values : list JsValue }.

(** [jsToSql[colName] || colName] as the template literal prints it. *)
Definition column (jsToSql : gmap string string) (colName : string) : string :=
  ToString (js_or (alias_get jsToSql colName) (JStr colName)).

Definition sqlForPartialUpdate (dataToUpdate : JsObject)
    (jsToSql : gmap string string) : Except SetClause :=
  let keys := Object_keys dataToUpdate in
  if (length keys =? 0)%nat then Throw (BadRequestError "No data")
  else
    let cols := imap (fun idx colName =>
                  dquote +:+ column jsToSql colName +:+ dquote +:+ "=$"
                         +:+ pretty (idx + 1)%nat) keys in
    Return {| setCols := join ", " cols;
              values := Object_values dataToUpdate |}.

(** The substitution [${query ? query : ''}] with which both [findAll]
    methods splice the result of [#filterAll] into their SELECT. *)
Definition query_text (query : JsValue) : string :=
  ToString (if ToBoolean query then query else JStr "").

(** ** Relational comparison *)

(** [x >= y] through the abstract relational comparison.  Two strings are
    compared character by character; any other pair is compared as
    numbers, and a comparison involving [NaN] is false.  The conversion of
    a string to a number is a primitive of the language, taken here as a
    parameter ([None] is [NaN]); comparisons of numbers, [null], booleans
    and [undefined] do not use it. *)
Section Relational.
Variable StringToNumber : string -> option Z.

Definition ToNumber (v : JsValue) : option Z :=
  match v with
  | JUndefined => None
  | JNull => Some 0
  | JBool b => Some (if b then 1 else 0)
  | JNum n => Some n
  | JStr s => StringToNumber s
  end.

Definition IsLessThan (x y : JsValue) : option bool :=
  match x, y with
  | JStr a, JStr b => Some (String.ltb a b)
  | _, _ =>
      match ToNumber x, ToNumber y with
      | Some a, Some b => Some (a <? b)
      | _, _ => None
      end
  end.

Definition js_ge (x y : JsValue) : bool :=
  match IsLessThan x y with
  | Some false => true
  | _ => false
  end.

End Relational.

(** ** models/company.js *)

Module Company.
Section FilterAll.
Variable StringToNumber : string -> option Z.

(** The text one iteration of the [reduce] callback appends. *)
Definition piece (values : list JsValue) (val : string) (idx : nat) : string :=
  (if (idx =? 0)%nat then nl +:+ "WHERE" else nl +:+ "AND") +:+ " " +:+
  (if String.eqb val "name"
   then "lower(name) LIKE lower('%' || '" +:+ ToString (js_index values idx)
        +:+ "' || '%')"
   else "num_employees "
        +:+ (if String.eqb val "minEmployees" then ">=" else "<")
        +:+ " " +:+ ToString (js_index values idx)).

(** The [reduce] expression whose value [#filterAll] returns. *)
Definition clause (filters : JsObject) : string :=
  let keys := Object_keys filters in
  let values := Object_values filters in
  reduce (fun obj val idx => obj +:+ piece values val idx) "" keys.

(** [Company.#filterAll]; [None] is a missing ([null] or [undefined])
    filters argument, and the result [JUndefined] is the bare [return]. *)
Definition filterAll (filters : option JsObject) : Except JsValue :=
  match filters with
  | None => Return JUndefined
  | Some filters =>
      if js_ge StringToNumber (js_get filters "minEmployees")
                              (js_get filters "maxEmployees")
      then Throw (BadRequestError
        "instance.filters.maxEmployees must be greater than instance.filters.minEmployees")
      else Return (JStr (clause filters))
  end.

End FilterAll.
End Company.

(** ** The Job model *)

Module Job.

(** The keyword part of one iteration of the [reduce] callback. *)
Definition keyword (values : list JsValue) (val : string) (idx : nat) : string :=
  if ToBoolean (js_and (JBool (idx =? 0)%nat) (js_index values idx))
  then nl +:+ "WHERE"
  else if String.eqb val "hasEquity" && js_not (js_index values idx)
       then ""
       else nl +:+ "AND".

(** The comparison part of one iteration. *)
Definition comparison (values : list JsValue) (val : string) (idx : nat) : string :=
  if String.eqb val "title"
  then "lower(title) LIKE lower('%' || '" +:+ ToString (js_index values idx)
       +:+ "' || '%')"
  else if String.eqb val "minSalary"
       then "salary >= " +:+ ToString (js_index values idx)
       else if ToBoolean (js_and (JBool (String.eqb val "hasEquity"))
                                 (js_index values idx))
            then "equity > 0"
            else "".

Definition piece (values : list JsValue) (val : string) (idx : nat) : string :=
  keyword values val idx +:+ " " +:+ comparison values val idx.

(** The [reduce] expression whose value [#filterAll] returns. *)
Definition clause (filters : JsObject) : string :=
  let keys := Object_keys filters in
  let values := Object_values filters in
  reduce (fun obj val idx => obj +:+ piece values val idx) "" keys.

(** [Job.#filterAll]; [None] is a missing ([null] or [undefined]) filters
    argument, and the result [JUndefined] is the bare [return]. *)
Definition filterAll (filters : option JsObject) : JsValue :=
  match filters with
  | None => JUndefined
  | Some filters => JStr (clause filters)
  end.

End Job.

(** ** The database

    The methods of the models are [async] functions around
    [await db.query(text, params)].  A method is modelled as the tree of
    its exchanges with the database: it is done, with a thrown error or a
    returned value, or it sends a statement with its parameters and goes on
    with the rows of the result.  No method catches: a query the database
    rejects ends the method at that query. *)
Inductive Db (A : Type) : Type :=
| Done (r : Except A)
| Query (text : string) (params : list JsValue) (k : list JsObject -> Db A).
Arguments Done {A} r.
Arguments Query {A} text params k.

Fixpoint db_bind {A B : Type} (m : Db A) (f : A -> Db B) : Db B :=
  match m with
  | Done (Throw e) => Done (Throw e)
  | Done (Return a) => f a
  | Query text params k => Query text params (fun rows => db_bind (k rows) f)
  end.

#[global] Instance Db_bind : MBind Db := fun A B f m => db_bind m f.
#[global] Instance Db_ret : MRet Db := fun A a => Done (Return a).

(** [(await db.query(text, params)).rows] *)
Definition db_query (text : string) (params : list JsValue) : Db (list JsObject) :=
  Query text params (fun rows => Done (Return rows)).

(** [throw new ...] *)
Definition db_throw {A : Type} (e : ExpressError) : Db A := Done (Throw e).

(** A call of a synchronous routine, whose exception goes through. *)
Definition db_call {A : Type} (r : Except A) : Db A := Done r.

(** The global [isNaN]: whether the argument converts to [NaN]. *)
Definition isNaN (StringToNumber : string -> option Z) (v : JsValue) : bool :=
  match ToNumber StringToNumber v with
  | None => true
  | Some _ => false
  end.

(** A property assignment [k: v] of an object literal: the value is
    replaced where the key is, the property is added last otherwise. *)
Fixpoint js_set (o : JsObject) (k : string) (v : JsValue) : JsObject :=
  match o with
  | [] => [(k, v)]
  | (k', v') :: o' =>
      if decide (k' = k) then (k, v) :: o' else (k', v') :: js_set o' k v
  end.

(** ** models/company.js, the methods *)

Module CompanyModel.

(** The statements of the methods, as their template literals spell them. *)
Definition create_check_sql : string :=
  "SELECT handle" +:+ nl +:+
  "           FROM companies" +:+ nl +:+
  "           WHERE handle = $1".

Definition create_insert_sql : string :=
  "INSERT INTO companies" +:+ nl +:+
  "           (handle, name, description, num_employees, logo_url)" +:+ nl +:+
  "           VALUES ($1, $2, $3, $4, $5)" +:+ nl +:+
  "           RETURNING handle, name, description, num_employees AS " +:+ dquote +:+ "numEmployees" +:+ dquote +:+ ", logo_url AS " +:+ dquote +:+ "logoUrl" +:+ dquote.

Definition findAll_sql (query : JsValue) : string :=
  "SELECT handle," +:+ nl +:+
  "                  name," +:+ nl +:+
  "                  description," +:+ nl +:+
  "                  num_employees AS " +:+ dquote +:+ "numEmployees" +:+ dquote +:+ "," +:+ nl +:+
  "                  logo_url AS " +:+ dquote +:+ "logoUrl" +:+ dquote +:+ nl +:+
  "           FROM companies " +:+ query_text query +:+ nl +:+
  "           ORDER BY name".

Definition get_sql : string :=
  "SELECT handle," +:+ nl +:+
  "              c.name," +:+ nl +:+
  "              c.description," +:+ nl +:+
  "              c.num_employees AS " +:+ dquote +:+ "numEmployees" +:+ dquote +:+ "," +:+ nl +:+
  "              c.logo_url AS " +:+ dquote +:+ "logoUrl" +:+ dquote +:+ "," +:+ nl +:+
  "              j.id, " +:+ nl +:+
  "              j.title, " +:+ nl +:+
  "              j.salary, " +:+ nl +:+
  "              j.equity" +:+ nl +:+
  "          FROM companies c" +:+ nl +:+
  "          LEFT JOIN jobs j " +:+ nl +:+
  "          ON j.company_handle = c.handle" +:+ nl +:+
  "          WHERE c.handle = $1".

Definition update_sql (setCols handleVarIdx : string) : string :=
  "UPDATE companies " +:+ nl +:+
  "                      SET " +:+ setCols +:+ " " +:+ nl +:+
  "                      WHERE handle = " +:+ handleVarIdx +:+ " " +:+ nl +:+
  "                      RETURNING handle, " +:+ nl +:+
  "                                name, " +:+ nl +:+
  "                                description, " +:+ nl +:+
  "                                num_employees AS " +:+ dquote +:+ "numEmployees" +:+ dquote +:+ ", " +:+ nl +:+
  "                                logo_url AS " +:+ dquote +:+ "logoUrl" +:+ dquote.

Definition remove_sql : string :=
  "DELETE" +:+ nl +:+
  "           FROM companies" +:+ nl +:+
  "           WHERE handle = $1" +:+ nl +:+
  "           RETURNING handle".

(** The object [Company.get] builds: its scalar properties in order, and
    the array of its [jobs] property. *)
Record Detail : Type := { fields : JsObject; jobs : list JsObject }.

(** The accumulator of the [reduce] of [Company.get]: the initial [''],
    the [undefined] of a callback that returns nothing, or the object. *)
Inductive Acc : Type :=
| AccEmpty
| AccUndefined
| AccDetail (c : Detail).

(** The properties the spread [...o] copies. *)
Definition spread (o : Acc) : JsObject :=
  match o with
  | AccDetail c => fields c
  | _ => []
  end.

(** [j => j.id ? ({ id, title, salary, equity }) : null] *)
Definition job_of_row (j : JsObject) : option JsObject :=
  if ToBoolean (js_get j "id")
  then Some [("id", js_get j "id"); ("title", js_get j "title");
             ("salary", js_get j "salary"); ("equity", js_get j "equity")]
  else None.

(** The callback of the [reduce] of [Company.get]. *)
Definition get_step (rows : list JsObject) (o : Acc) (v : JsObject) (i : nat) : Acc :=
  if (Z.of_nat i =? Z.of_nat (length rows) - 1)%Z
  then AccDetail
         {| fields :=
              js_set (js_set (js_set (js_set (js_set (spread o)
                "handle" (js_get v "handle"))
                "name" (js_get v "name"))
                "description" (js_get v "description"))
                "numEmployees" (js_get v "numEmployees"))
                "logoUrl" (js_get v "logoUrl");
            jobs := omap id (job_of_row <$> rows) |}
  else AccUndefined.

(** The alias map [Company.update] passes. *)
Definition update_aliases : gmap string string :=
  <["numEmployees" := "num_employees"]> (<["logoUrl" := "logo_url"]> ∅).

Section Methods.
Variable StringToNumber : string -> option Z.

(** [Company.create]; the argument is destructured, a missing field is
    [undefined]; the result is [result.rows[0]], [None] when there is no
    row. *)
Definition create (data : JsObject) : Db (option JsObject) :=
  let handle := js_get data "handle" in
  let name := js_get data "name" in
  let description := js_get data "description" in
  let numEmployees := js_get data "numEmployees" in
  let logoUrl := js_get data "logoUrl" in
  duplicateCheck ← db_query create_check_sql [handle];
  if duplicateCheck !! 0%nat is Some _
  then db_throw (BadRequestError ("Duplicate company: " +:+ ToString handle))
  else
    result ← db_query create_insert_sql
               [handle; name; description; numEmployees; logoUrl];
    mret (result !! 0%nat).

(** [Company.findAll]; the statement is sent without parameters. *)
Definition findAll (filters : option JsObject) : Db (list JsObject) :=
  query ← db_call (Company.filterAll StringToNumber filters);
  db_query (findAll_sql query) [].

(** [Company.get] *)
Definition get (handle : JsValue) : Db Acc :=
  companyRes ← db_query get_sql [handle];
  if companyRes !! 0%nat is Some _
  then mret (reduce (get_step companyRes) AccEmpty companyRes)
  else db_throw (NotFoundError ("No company: " +:+ ToString handle)).

(** [Company.update] *)
Definition update (handle : JsValue) (data : JsObject) : Db JsObject :=
  r ← db_call (sqlForPartialUpdate data update_aliases);
  let handleVarIdx := "$" +:+ pretty (length (values r) + 1)%nat in
  result ← db_query (update_sql (setCols r) handleVarIdx) (values r ++ [handle]);
  match result !! 0%nat with
  | Some company => mret company
  | None => db_throw (NotFoundError ("No company: " +:+ ToString handle))
  end.

(** [Company.remove]; it returns nothing. *)
Definition remove (handle : JsValue) : Db unit :=
  result ← db_query remove_sql [handle];
  if result !! 0%nat is Some _
  then mret tt
  else db_throw (NotFoundError ("No company: " +:+ ToString handle)).

End Methods.
End CompanyModel.

(** ** The Job model, the methods *)

Module JobModel.

(** The statements of the methods, as their template literals spell them. *)
Definition create_sql : string :=
  "INSERT INTO jobs" +:+ nl +:+
  "           (title, salary, equity, company_handle)" +:+ nl +:+
  "           VALUES ($1, $2, $3, $4)" +:+ nl +:+
  "           RETURNING id, title, salary, equity, company_handle AS " +:+ dquote +:+ "companyHandle" +:+ dquote.

Definition findAll_sql (query : JsValue) : string :=
  "SELECT id," +:+ nl +:+
  "                  title, " +:+ nl +:+
  "                  salary, " +:+ nl +:+
  "                  equity, " +:+ nl +:+
  "                  company_handle AS " +:+ dquote +:+ "companyHandle" +:+ dquote +:+ nl +:+
  "           FROM jobs " +:+ query_text query +:+ nl +:+
  "           ORDER BY title".

Definition get_sql : string :=
  "SELECT id," +:+ nl +:+
  "                  title," +:+ nl +:+
  "                  salary," +:+ nl +:+
  "                  equity," +:+ nl +:+
  "                  company_handle AS " +:+ dquote +:+ "companyHandle" +:+ dquote +:+ nl +:+
  "            FROM jobs" +:+ nl +:+
  "            WHERE id = $1".

Definition update_sql (setCols : string) (id : JsValue) : string :=
  "UPDATE jobs " +:+ nl +:+
  "                      SET " +:+ setCols +:+ " " +:+ nl +:+
  "                      WHERE id = " +:+ ToString id +:+ " " +:+ nl +:+
  "                      RETURNING id, " +:+ nl +:+
  "                                title, " +:+ nl +:+
  "                                salary, " +:+ nl +:+
  "                                equity, " +:+ nl +:+
  "                                company_handle AS " +:+ dquote +:+ "companyHandle" +:+ dquote.

Definition remove_sql : string :=
  "DELETE" +:+ nl +:+
  "           FROM jobs" +:+ nl +:+
  "           WHERE id = $1" +:+ nl +:+
  "           RETURNING id".

Section Methods.
Variable StringToNumber : string -> option Z.

(** [Job.create] *)
Definition create (data : JsObject) : Db (option JsObject) :=
  let title := js_get data "title" in
  let salary := js_get data "salary" in
  let equity := js_get data "equity" in
  let company_handle := js_get data "company_handle" in
  result ← db_query create_sql [title; salary; equity; company_handle];
  mret (result !! 0%nat).

(** [Job.findAll]; its constant [sql] is never read, and the statement is
    sent without parameters. *)
Definition findAll (filters : option JsObject) : Db (list JsObject) :=
  let query := Job.filterAll filters in
  db_query (findAll_sql query) [].

(** [Job.get] *)
Definition get (id : JsValue) : Db JsObject :=
  if isNaN StringToNumber id
  then db_throw (NotFoundError ("No job: " +:+ ToString id))
  else
    jobRes ← db_query get_sql [id];
    match jobRes !! 0%nat with
    | Some job => mret job
    | None => db_throw (NotFoundError ("No job: " +:+ ToString id))
    end.

(** [Job.update]; the identifier is written into the statement. *)
Definition update (id : JsValue) (data : JsObject) : Db JsObject :=
  if isNaN StringToNumber id
  then db_throw (NotFoundError ("No job: " +:+ ToString id))
  else
    r ← db_call (sqlForPartialUpdate data ∅);
    result ← db_query (update_sql (setCols r) id) (values r);
    match result !! 0%nat with
    | Some job => mret job
    | None => db_throw (NotFoundError ("No job: " +:+ ToString id))
    end.

(** [Job.remove]; it returns nothing. *)
Definition remove (id : JsValue) : Db unit :=
  if isNaN StringToNumber id
  then db_throw (NotFoundError ("No job: " +:+ ToString id))
  else
    result ← db_query remove_sql [id];
    if result !! 0%nat is Some _
    then mret tt
    else db_throw (NotFoundError ("No job: " +:+ ToString id)).

End Methods.
End JobModel.

(** ** The users routes: the handler of [POST /:username/jobs/:id] *)

Module UsersRoutes.

(** [String.prototype.includes] *)
Definition includes (s searchString : string) : bool :=
  if String.index 0 searchString s is Some _ then true else false.

(** What the [catch] block hands to [next]: an error it makes, or the one
    it caught. *)
Inductive Next : Type :=
| NextNew (e : ExpressError)
| NextCaught (err : JsObject).

(** The [catch] block of the route that applies for a job; [err] is the
    caught error, read through its [code] and [detail]. *)
Definition apply_catch (err : JsObject) : Next :=
  let code := js_get err "code" in
  let detail := ToString (js_get err "detail") in
  if bool_decide (code = JStr "23503")
     && includes detail ("is not present in table " +:+ dquote +:+ "users" +:+ dquote)
  then NextNew (BadRequestError "No user with that username")
  else if bool_decide (code = JStr "23503")
          && includes detail ("is not present in table " +:+ dquote +:+ "jobs" +:+ dquote)
       then NextNew (NotFoundError "No job with that id")
       else if bool_decide (code = JStr "23505") && includes detail "already exists"
            then NextNew (BadRequestError "Duplicate application")
            else NextCaught err.

End UsersRoutes.

(** ** Reading the emitted text *)

(** The text a run of [reduce] callbacks of the shape
    [obj += g(val, idx)] adds, starting at index [idx]. *)
Fixpoint pieces_from (g : string -> nat -> string) (idx : nat)
    (l : list string) : string :=
  match l with
  | [] => ""
  | x :: l' => g x idx +:+ pieces_from g (S idx) l'
  end.

(** A positional placeholder and an assignment fragment, as PostgreSQL
    reads them. *)
Definition placeholder (pos : nat) : string := "$" +:+ pretty pos.
Definition assignment (col : string) (pos : nat) : string :=
  dquote +:+ col +:+ dquote +:+ "=" +:+ placeholder pos.


(** *** Parameter references

    A scan of a statement for its positional parameters: a [$] followed by
    digits, outside double-quoted identifiers and single-quoted literals. *)
Inductive ScanState : Type :=
| ScanText
| ScanIdent
| ScanLiteral
| ScanParam (n : option N).

Definition digit (c : ascii) : option N := N.of_nat <$> Ascii.is_nat c.

Definition scan_start (c : ascii) : ScanState :=
  if decide (c = "034"%char) then ScanIdent
  else if decide (c = "'"%char) then ScanLiteral
  else if decide (c = "$"%char) then ScanParam None
  else ScanText.

Fixpoint scan (st : ScanState) (s : string) : list N :=
  match s with
  | EmptyString =>
      match st with
      | ScanParam n => option_list n
      | _ => []
      end
  | String c s' =>
      match st with
      | ScanText => scan (scan_start c) s'
      | ScanIdent =>
          scan (if decide (c = "034"%char) then ScanText else ScanIdent) s'
      | ScanLiteral =>
          scan (if decide (c = "'"%char) then ScanText else ScanLiteral) s'
      | ScanParam n =>
          match digit c with
          | Some d => scan (ScanParam (Some (10 * default 0 n + d)%N)) s'
          | None => option_list n ++ scan (scan_start c) s'
          end
      end
  end.

Definition placeholders (text : string) : list N := scan ScanText text.

(** Whether a double quote occurs in a name. *)
Fixpoint has_dquote (s : string) : bool :=
  match s with
  | EmptyString => false
  | String c s' => bool_decide (c = "034"%char) || has_dquote s'
  end.

(** *** SQL tokens

    Enough of the SQL lexical structure to compare two predicate clauses:
    words (keywords, names, operators), single-quoted string literals with
    the doubled-quote escape, parentheses and commas, and the string
    concatenation operator.  White space separates tokens and is dropped. *)
Inductive Token : Type :=
| TWord (w : string)
| TLit (s : string)
| TSym (c : ascii)
| TConcat.

#[global] Instance Token_eq_dec : EqDecision Token.
Proof. solve_decision. Defined.

Inductive LexState : Type :=
| LText (word : string)
| LLit (lit : string)
| LLitQuote (lit : string)
| LBar.

Definition flush (word : string) : list Token :=
  if decide (word = "") then [] else [TWord word].

(** One character read outside a literal, after the word [word]. *)
Definition text_step (word : string) (c : ascii) : list Token * LexState :=
  if Ascii.is_space c then (flush word, LText "")
  else if decide (c = "'"%char) then (flush word, LLit "")
  else if decide (c = "|"%char) then (flush word, LBar)
  else if decide (c = "("%char ∨ c = ")"%char ∨ c = ","%char)
       then (flush word ++ [TSym c], LText "")
       else ([], LText (word +:+ String c "")).

Fixpoint lex (st : LexState) (s : string) : list Token :=
  match s with
  | EmptyString =>
      match st with
      | LText word => flush word
      | LLit lit | LLitQuote lit => [TLit lit]
      | LBar => [TSym "|"%char]
      end
  | String c s' =>
      match st with
      | LText word =>
          let '(ts, st') := text_step word c in ts ++ lex st' s'
      | LLit lit =>
          if decide (c = "'"%char) then lex (LLitQuote lit) s'
          else lex (LLit (lit +:+ String c "")) s'
      | LLitQuote lit =>
          if decide (c = "'"%char) then lex (LLit (lit +:+ "'")) s'
          else let '(ts, st') := text_step "" c in TLit lit :: ts ++ lex st' s'
      | LBar =>
          if decide (c = "|"%char) then TConcat :: lex (LText "") s'
          else let '(ts, st') := text_step "" c in
               TSym "|"%char :: ts ++ lex st' s'
      end
  end.

Definition sql_tokens (text : string) : list Token := lex (LText "") text.

(** Concatenations of literals are folded into one literal, as the server
    evaluates them. *)
Fixpoint fold_literals (pending : option string) (ts : list Token) : list Token :=
  match ts with
  | [] => option_list (TLit <$> pending)
  | TConcat :: TLit b :: ts' =>
      match pending with
      | Some a => fold_literals (Some (a +:+ b)) ts'
      | None => TConcat :: fold_literals (Some b) ts'
      end
  | TLit b :: ts' => option_list (TLit <$> pending) ++ fold_literals (Some b) ts'
  | t :: ts' => option_list (TLit <$> pending) ++ t :: fold_literals None ts'
  end.

(** Whether a single quote occurs in a value. *)
Fixpoint has_squote (s : string) : bool :=
  match s with
  | EmptyString => false
  | String c s' => bool_decide (c = "'"%char) || has_squote s'
  end.

(** Two clauses are equivalent when they read as the same tokens once
    literal concatenations are evaluated. *)
Definition sql_equiv (a b : string) : Prop :=
  fold_literals None (sql_tokens a) = fold_literals None (sql_tokens b).

(** A clause is blank when it holds no token: no keyword and no predicate,
    white space at most. *)
Definition blank (text : string) : Prop := sql_tokens text = [].


(** The fixtures of helpers/sql.test.js. *)
Definition data : JsObject :=
  [("name", JStr "C1"); ("numEmployees", JNum 1);
   ("logoUrl", JStr "http://c1.img")].
Definition js : gmap string string :=
  <["numEmployees" := "num_employees"]> (<["logoUrl" := "logo_url"]> ∅).

(** * Theorems *)

(** ** Strings, lists and [reduce] *)

Lemma append_assoc (a b c : string) : (a +:+ b) +:+ c = a +:+ (b +:+ c).
Proof.
  induction a as [|x a IH]; [done|].
  change (String x ((a +:+ b) +:+ c) = String x (a +:+ b +:+ c)).
  by rewrite IH.
Qed.

Lemma append_nil_r (a : string) : a +:+ "" = a.
Proof.
  induction a as [|x a IH]; [done|].
  change (String x (a +:+ "") = String x a). by rewrite IH.
Qed.

Lemma reduce_from_pieces (g : string -> nat -> string) (l : list string)
    (idx : nat) (acc : string) :
  reduce_from (fun obj val i => obj +:+ g val i) idx l acc
  = acc +:+ pieces_from g idx l.
Proof.
  revert idx acc. induction l as [|x l IH]; intros idx acc; simpl.
  - by rewrite append_nil_r.
  - by rewrite IH, append_assoc.
Qed.

Lemma pieces_from_app (g : string -> nat -> string) (l1 l2 : list string)
    (idx : nat) :
  pieces_from g idx (l1 ++ l2)
  = pieces_from g idx l1 +:+ pieces_from g (idx + length l1) l2.
Proof.
  revert idx. induction l1 as [|x l1 IH]; intros idx; simpl.
  - by rewrite Nat.add_0_r.
  - rewrite IH, append_assoc. by rewrite Nat.add_succ_r.
Qed.

Lemma pieces_from_ext (g g' : string -> nat -> string) (l : list string)
    (idx : nat) :
  (∀ j x, l !! j = Some x → g x (idx + j)%nat = g' x (idx + j)%nat) →
  pieces_from g idx l = pieces_from g' idx l.
Proof.
  revert idx. induction l as [|x l IH]; intros idx Hg; simpl; [done|].
  f_equal.
  - specialize (Hg 0%nat x eq_refl). by rewrite Nat.add_0_r in Hg.
  - apply IH. intros j y Hj. specialize (Hg (S j) y Hj).
    by rewrite Nat.add_succ_r in Hg.
Qed.

Lemma js_get_absent (o : JsObject) (k : string) :
  k ∉ Object_keys o → js_get o k = JUndefined.
Proof.
  induction o as [|[k' v] o IH]; [done|]. unfold Object_keys. cbn.
  intros Hk. apply not_elem_of_cons in Hk as [Hne Hk].
  destruct (decide (k' = k)) as [->|_]; [done|]. by apply IH.
Qed.

Lemma js_index_values (fs1 fs2 : JsObject) (k : string) (v : JsValue) :
  js_index (Object_values (fs1 ++ (k, v) :: fs2)) (length fs1) = v.
Proof.
  unfold js_index, Object_values. rewrite fmap_app. cbn.
  rewrite lookup_app_r by (rewrite length_fmap; lia).
  by rewrite length_fmap, Nat.sub_diag.
Qed.

Lemma js_index_values_prefix (fs1 fs2 : JsObject) (j : nat) :
  (j < length fs1)%nat →
  js_index (Object_values (fs1 ++ fs2)) j = js_index (Object_values fs1) j.
Proof.
  intros Hj. unfold js_index, Object_values. rewrite fmap_app.
  by rewrite lookup_app_l by (rewrite length_fmap; lia).
Qed.

(** ** helpers/sql.js *)

Example sql_test_works :
  sqlForPartialUpdate data js =
  Return {| setCols := dquote +:+ "name" +:+ dquote +:+ "=$1, "
                    +:+ dquote +:+ "num_employees" +:+ dquote +:+ "=$2, "
                    +:+ dquote +:+ "logo_url" +:+ dquote +:+ "=$3";
            values := [JStr "C1"; JNum 1; JStr "http://c1.img"] |}.
Proof. vm_compute. reflexivity. Qed.

Example sql_test_receives_no_data :
  sqlForPartialUpdate [] ∅ = Throw (BadRequestError "No data").
Proof. reflexivity. Qed.

(** On a payload with a key, the routine returns, and its text is the
    [", "]-join of one assignment per key. *)
Lemma sqlForPartialUpdate_returns (P : JsObject) (A : gmap string string) :
  P ≠ [] →
  sqlForPartialUpdate P A =
  Return {| setCols := join ", " (imap (fun idx k => assignment (column A k) (S idx))
                                       (Object_keys P));
            values := Object_values P |}.
Proof.
  intros HP. unfold sqlForPartialUpdate.
  destruct P as [|kv P]; [done|]. cbn [Object_keys fmap list_fmap length Nat.eqb].
  do 2 f_equal. unfold join. f_equal. apply imap_ext. intros i k _.
  by rewrite Nat.add_1_r.
Qed.

Lemma column_cases (A : gmap string string) (k : string) :
  column A k = match A !! k with
               | Some c => if decide (c = "") then k else c
               | None => k
               end.
Proof.
  unfold column, alias_get, js_or. destruct (A !! k) as [c|]; [|done].
  cbn. destruct (String.eqb_spec c "") as [->|Hc]; cbn.
  - by rewrite decide_True.
  - by rewrite decide_False.
Qed.

Lemma imap_zip_with_seq {X Y : Type} (f : X -> nat -> Y) (l : list X) (i : nat) :
  imap (fun idx x => f x (i + idx)%nat) l = zip_with f l (seq i (length l)).
Proof.
  revert i. induction l as [|x l IH]; intros i; [done|]. cbn.
  rewrite Nat.add_0_r. f_equal. rewrite <- IH. apply imap_ext.
  intros j y _. cbn. by rewrite Nat.add_succ_r.
Qed.




(** C3. The routine throws exactly when the payload has no key; the error
    is then [BadRequestError "No data"], raised in place of any clause.  A
    payload with a key makes it return. *)
Theorem sqlForPartialUpdate_no_data (P : JsObject) (A : gmap string string) :
  (sqlForPartialUpdate P A = Throw (BadRequestError "No data")
   ↔ Object_keys P = [])
  ∧ (Object_keys P ≠ [] → ∃ r, sqlForPartialUpdate P A = Return r)
  ∧ (∀ e, sqlForPartialUpdate P A = Throw e → e = BadRequestError "No data").
Proof.
  destruct P as [|kv P].
  - split; [done|]. split; [done|]. intros e He. by injection He.
  - rewrite (sqlForPartialUpdate_returns (kv :: P) A) by done.
    split; [split; discriminate|]. split; [eauto|discriminate].
Qed.

Lemma sqlForPartialUpdate_no_data_witness :
  sqlForPartialUpdate [] js = Throw (BadRequestError "No data")
  ∧ ∃ r, sqlForPartialUpdate data js = Return r.
Proof.
  split.
  - by apply (proj1 (sqlForPartialUpdate_no_data [] js)).
  - by apply (proj1 (proj2 (sqlForPartialUpdate_no_data data js))).
Defined.

(** C7. The text is a function of the keys and the alias map alone: two
    payloads with the same keys in the same order get the same text, and
    their values are returned in the parameter list, untouched. *)
Theorem sqlForPartialUpdate_text_ignores_values
    (P1 P2 : JsObject) (A : gmap string string) :
  P1 ≠ [] →
  Object_keys P1 = Object_keys P2 →
  ∃ text,
    sqlForPartialUpdate P1 A = Return {| setCols := text; values := Object_values P1 |}
    ∧ sqlForPartialUpdate P2 A = Return {| setCols := text; values := Object_values P2 |}.
Proof.
  intros HP1 Hkeys.
  assert (P2 ≠ []) as HP2.
  { intros ->. destruct P1; [done|discriminate]. }
  eexists. split.
  - by apply sqlForPartialUpdate_returns.
  - rewrite (sqlForPartialUpdate_returns P2 A HP2). by rewrite Hkeys.
Qed.

Lemma sqlForPartialUpdate_text_ignores_values_witness :
  ∃ text,
    sqlForPartialUpdate [("name", JStr "C1"); ("numEmployees", JNum 1)] js
    = Return {| setCols := text; values := [JStr "C1"; JNum 1] |}
    ∧ sqlForPartialUpdate [("name", JStr "x' OR 1=1"); ("numEmployees", JNull)] js
      = Return {| setCols := text; values := [JStr "x' OR 1=1"; JNull] |}.
Proof.
  apply (sqlForPartialUpdate_text_ignores_values
           [("name", JStr "C1"); ("numEmployees", JNum 1)]
           [("name", JStr "x' OR 1=1"); ("numEmployees", JNull)] js).
  - discriminate.
  - reflexivity.
Defined.




(** ** The placeholders a scan of the SET clause finds *)

Lemma pretty_N_go_app (x : N) (s t : string) :
  pretty_N_go x s +:+ t = pretty_N_go x (s +:+ t).
Proof.
  revert s. induction (N.lt_wf_0 x) as [x _ IH]; intros s.
  destruct (decide (x = 0%N)) as [->|Hx].
  - by rewrite !pretty_N_go_0.
  - rewrite !(pretty_N_go_step x) by lia.
    rewrite IH by (apply N.div_lt; lia). done.
Qed.

Lemma digit_pretty_N_char (d : N) :
  (d < 10)%N → digit (pretty_N_char d) = Some d.
Proof.
  intros Hd.
  assert (d = 0 ∨ d = 1 ∨ d = 2 ∨ d = 3 ∨ d = 4 ∨ d = 5 ∨ d = 6 ∨ d = 7
          ∨ d = 8 ∨ d = 9)%N as Hcases by lia.
  repeat (destruct Hcases as [->|Hcases]; [reflexivity|]). by subst.
Qed.

(** Reading the decimal digits of [x] multiplies what was read so far by a
    power of ten and adds [x]. *)
Lemma scan_pretty_N_go (x : N) :
  ∃ p : N, ∀ (n : option N) (s : string),
    scan (ScanParam n) (pretty_N_go x s)
    = if decide (x = 0%N) then scan (ScanParam n) s
      else scan (ScanParam (Some (default 0 n * p + x)%N)) s.
Proof.
  induction (N.lt_wf_0 x) as [x _ IH].
  destruct (decide (x = 0%N)) as [->|Hx].
  - exists 1%N. intros n s. by rewrite pretty_N_go_0.
  - destruct (IH (x `div` 10)%N) as [p Hp]; [apply N.div_lt; lia|].
    pose proof (N.div_mod x 10 ltac:(lia)) as Hdm.
    pose proof (N.mod_lt x 10 ltac:(lia)) as Hlt.
    destruct (decide (x `div` 10 = 0)%N) as [Hz|Hnz].
    + exists 10%N. intros n s.
      rewrite pretty_N_go_step by lia. rewrite Hp.
      cbn [scan]. rewrite digit_pretty_N_char by done.
      do 3 f_equal. lia.
    + exists (10 * p)%N. intros n s.
      rewrite pretty_N_go_step by lia. rewrite Hp.
      cbn [scan]. rewrite digit_pretty_N_char by done.
      change (default 0%N (Some ?v)) with v.
      do 3 f_equal. revert Hdm.
      generalize (x `div` 10)%N (x `mod` 10)%N (default 0%N n).
      intros q r a ->. lia.
Qed.

Lemma scan_placeholder (pos : nat) (rest : string) :
  scan (ScanParam None) (pretty (S pos) +:+ rest)
  = scan (ScanParam (Some (N.of_nat (S pos)))) rest.
Proof.
  unfold pretty, pretty_nat, pretty, pretty_N.
  rewrite decide_False by lia. rewrite pretty_N_go_app.
  destruct (scan_pretty_N_go (N.of_nat (S pos))) as [p ->].
  by rewrite decide_False by lia.
Qed.

Lemma scan_ident (col rest : string) :
  has_dquote col = false →
  scan ScanIdent (col +:+ dquote +:+ rest) = scan ScanText rest.
Proof.
  induction col as [|c col IH]; intros Hcol.
  - reflexivity.
  - cbn in Hcol. apply orb_false_iff in Hcol as [Hc Hcol].
    apply bool_decide_eq_false in Hc.
    change (String c col +:+ dquote +:+ rest)
      with (String c (col +:+ dquote +:+ rest)).
    cbn [scan]. rewrite decide_False by done. by apply IH.
Qed.

(** One assignment: the scan passes over the quoted column name and reads
    the placeholder's number. *)
Lemma scan_assignment (col : string) (pos : nat) (rest : string) :
  has_dquote col = false →
  scan ScanText (assignment col (S pos) +:+ rest)
  = scan (ScanParam (Some (N.of_nat (S pos)))) rest.
Proof.
  intros Hcol. unfold assignment, placeholder.
  rewrite !append_assoc.
  change (dquote +:+ ?x) with (String "034"%char x).
  cbn [scan]. change (scan_start "034"%char) with ScanIdent.
  rewrite scan_ident by done.
  change (scan ScanText ("=" +:+ "$" +:+ pretty (S pos) +:+ rest))
    with (scan (ScanParam None) (pretty (S pos) +:+ rest)).
  apply scan_placeholder.
Qed.

Lemma placeholders_join (cols : list string) (i : nat) :
  forallb (fun col => negb (has_dquote col)) cols = true →
  placeholders (join ", " (zip_with assignment cols (seq (S i) (length cols))))
  = N.of_nat <$> seq (S i) (length cols).
Proof.
  unfold placeholders, join. revert i.
  induction cols as [|col cols IH]; intros i Hcols; [done|].
  cbn in Hcols. apply andb_true_iff in Hcols as [Hcol Hcols].
  apply negb_true_iff in Hcol.
  destruct cols as [|col' cols].
  - cbn [length seq zip_with String.concat].
    rewrite <- (append_nil_r (assignment col (S i))).
    by rewrite scan_assignment.
  - specialize (IH (S i) Hcols).
    change (scan ScanText
              (assignment col (S i) +:+ ", " +:+
               String.concat ", "
                 (zip_with assignment (col' :: cols)
                           (seq (S (S i)) (length (col' :: cols)))))
            = N.of_nat (S i)
              :: (N.of_nat <$> seq (S (S i)) (length (col' :: cols)))).
    rewrite scan_assignment by done.
    change (scan (ScanParam (Some ?n)) (", " +:+ ?r)) with (n :: scan ScanText r).
    by rewrite IH.
Qed.

(** When no column name holds a double quote, a scan of the emitted text
    finds the parameters 1, 2, ..., n in this order and nothing else. *)
Theorem sqlForPartialUpdate_scan (P : JsObject) (A : gmap string string) :
  P ≠ [] →
  forallb (fun k => negb (has_dquote (column A k))) (Object_keys P) = true →
  ∃ r, sqlForPartialUpdate P A = Return r
       ∧ placeholders (setCols r) = N.of_nat <$> seq 1 (length (values r)).
Proof.
  intros HP Hcols. eexists. split; [by apply sqlForPartialUpdate_returns|].
  cbn [setCols values].
  assert (imap (fun idx k => assignment (column A k) (S idx)) (Object_keys P)
          = zip_with assignment (column A <$> Object_keys P)
                     (seq 1 (length (column A <$> Object_keys P)))) as ->.
  { rewrite zip_with_fmap_l, length_fmap.
    apply (imap_zip_with_seq (fun k pos => assignment (column A k) pos)
                             (Object_keys P) 1). }
  replace (length (Object_values P)) with (length (column A <$> Object_keys P))
    by (unfold Object_keys, Object_values; by rewrite !length_fmap).
  apply placeholders_join.
  rewrite forallb_forall in Hcols. apply forallb_forall.
  intros col Hcol. apply in_map_iff in Hcol as (k & <- & Hk). by apply Hcols.
Qed.

Lemma sqlForPartialUpdate_scan_witness :
  ∃ r, sqlForPartialUpdate data js = Return r
       ∧ placeholders (setCols r) = N.of_nat <$> seq 1 (length (values r)).
Proof.
  apply (sqlForPartialUpdate_scan data js); [discriminate | reflexivity].
Defined.

Example sql_test_scan :
  ∃ r, sqlForPartialUpdate data js = Return r
       ∧ placeholders (setCols r) = [1; 2; 3]%N.
Proof. eexists. split; [reflexivity | vm_compute; reflexivity]. Qed.

(** ** Clauses built by [reduce] *)

Section ClauseSplit.
Variable piece : list JsValue -> string -> nat -> string.
Hypothesis piece_local : ∀ vs vs' k i,
  js_index vs i = js_index vs' i → piece vs k i = piece vs' k i.

(** The clause of a filter object is the clause of the filters before a
    given one, then that filter's piece, then the pieces of the rest. *)
Lemma reduce_clause_split (fs1 fs2 : JsObject) (k : string) (v : JsValue) :
  let fs := fs1 ++ (k, v) :: fs2 in
  reduce (fun obj val idx => obj +:+ piece (Object_values fs) val idx) ""
         (Object_keys fs)
  = reduce (fun obj val idx => obj +:+ piece (Object_values fs1) val idx) ""
           (Object_keys fs1)
    +:+ piece (Object_values fs) k (length fs1)
    +:+ pieces_from (piece (Object_values fs)) (S (length fs1)) (Object_keys fs2).
Proof.
  intros fs. unfold reduce. rewrite !reduce_from_pieces.
  change ("" +:+ ?x) with x.
  unfold fs at 2, Object_keys. rewrite fmap_app, pieces_from_app.
  rewrite length_fmap. cbn [fmap list_fmap pieces_from fst Nat.add].
  f_equal. apply pieces_from_ext. intros j x Hj. apply piece_local.
  apply js_index_values_prefix. apply lookup_lt_Some in Hj.
  by rewrite length_fmap in Hj.
Qed.

End ClauseSplit.

(** ** models/company.js *)

Lemma js_ge_undefined_r (STN : string -> option Z) (x : JsValue) :
  js_ge STN x JUndefined = false.
Proof.
  unfold js_ge, IsLessThan. destruct x as [| |b|n|s]; cbn; try done.
  by destruct (STN s).
Qed.

Lemma js_ge_undefined_l (STN : string -> option Z) (y : JsValue) :
  js_ge STN JUndefined y = false.
Proof. by destruct y. Qed.

Lemma js_ge_numbers (STN : string -> option Z) (a b : Z) :
  js_ge STN (JNum a) (JNum b) = (b <=? a).
Proof.
  unfold js_ge, IsLessThan. cbn. destruct (Z.ltb_spec a b), (Z.leb_spec b a); done || lia.
Qed.

Lemma Company_piece_local (vs vs' : list JsValue) (k : string) (i : nat) :
  js_index vs i = js_index vs' i → Company.piece vs k i = Company.piece vs' k i.
Proof. intros Hi. unfold Company.piece. by rewrite Hi. Qed.

Lemma Company_clause_split (fs1 fs2 : JsObject) (k : string) (v : JsValue) :
  Company.clause (fs1 ++ (k, v) :: fs2)
  = Company.clause fs1
    +:+ (if decide (fs1 = []) then nl +:+ "WHERE" else nl +:+ "AND") +:+ " "
    +:+ (if decide (k = "name")
         then "lower(name) LIKE lower('%' || '" +:+ ToString v +:+ "' || '%')"
         else "num_employees "
              +:+ (if decide (k = "minEmployees") then ">=" else "<")
              +:+ " " +:+ ToString v)
    +:+ pieces_from (Company.piece (Object_values (fs1 ++ (k, v) :: fs2)))
                    (S (length fs1)) (Object_keys fs2).
Proof.
  unfold Company.clause.
  rewrite (reduce_clause_split Company.piece Company_piece_local fs1 fs2 k v).
  f_equal. unfold Company.piece at 1. rewrite js_index_values.
  rewrite !append_assoc. f_equal.
  - destruct fs1; done.
  - do 2 f_equal. destruct (String.eqb_spec k "name").
    + by rewrite decide_True.
    + rewrite decide_False by done. do 2 f_equal.
      destruct (String.eqb_spec k "minEmployees").
      * by rewrite decide_True.
      * by rewrite decide_False.
Qed.

Lemma Company_filterAll_validated (STN : string -> option Z) (fs : JsObject) :
  js_ge STN (js_get fs "minEmployees") (js_get fs "maxEmployees") = false →
  Company.filterAll STN (Some fs) = Return (JStr (Company.clause fs)).
Proof. intros Hge. unfold Company.filterAll. by rewrite Hge. Qed.

Lemma Company_filterAll_not_thrown (STN : string -> option Z) (fs : JsObject) :
  (∀ e, Company.filterAll STN (Some fs) ≠ Throw e) →
  Company.filterAll STN (Some fs) = Return (JStr (Company.clause fs)).
Proof.
  intros Hno. unfold Company.filterAll in *.
  destruct (js_ge STN _ _); [|done]. by edestruct Hno.
Qed.


Example company_filter_min_above_max :
  ∀ STN, Company.filterAll STN
           (Some [("minEmployees", JNum 10); ("maxEmployees", JNum 5)])
         = Throw (BadRequestError
             "instance.filters.maxEmployees must be greater than instance.filters.minEmployees").
Proof. reflexivity. Qed.

Example company_filter_all_keys :
  ∀ STN, Company.filterAll STN
           (Some [("minEmployees", JNum 1); ("name", JStr "net");
                  ("maxEmployees", JNum 5)])
         = Return (JStr (nl +:+ "WHERE num_employees >= 1" +:+
                         nl +:+ "AND lower(name) LIKE lower('%' || 'net' || '%')" +:+
                         nl +:+ "AND num_employees < 5")).
Proof. reflexivity. Qed.

Example company_filter_absent :
  ∀ STN, Company.filterAll STN None = Return JUndefined
         ∧ query_text JUndefined = "".
Proof. done. Qed.

(** C4. With numeric bounds, [minEmployees >= maxEmployees] makes the
    routine throw [BadRequestError] in place of any clause; when one of the
    two keys is missing, or the bounds are numbers with
    [minEmployees < maxEmployees], it returns its clause. *)
Theorem company_range_validation (STN : string -> option Z) (fs : JsObject) :
  (∀ a b, js_get fs "minEmployees" = JNum a →
          js_get fs "maxEmployees" = JNum b →
          a >= b →
          Company.filterAll STN (Some fs) =
          Throw (BadRequestError
            "instance.filters.maxEmployees must be greater than instance.filters.minEmployees"))
  ∧ ("minEmployees" ∉ Object_keys fs ∨ "maxEmployees" ∉ Object_keys fs →
     Company.filterAll STN (Some fs) = Return (JStr (Company.clause fs)))
  ∧ (∀ a b, js_get fs "minEmployees" = JNum a →
            js_get fs "maxEmployees" = JNum b →
            a < b →
            Company.filterAll STN (Some fs) = Return (JStr (Company.clause fs))).
Proof.
  split; [|split].
  - intros a b Ha Hb Hab. unfold Company.filterAll.
    rewrite Ha, Hb, js_ge_numbers.
    by destruct (Z.leb_spec b a); [|lia].
  - intros [Hmin|Hmax]; apply Company_filterAll_validated.
    + rewrite (js_get_absent fs "minEmployees" Hmin). apply js_ge_undefined_l.
    + rewrite (js_get_absent fs "maxEmployees" Hmax). apply js_ge_undefined_r.
  - intros a b Ha Hb Hab. apply Company_filterAll_validated.
    rewrite Ha, Hb, js_ge_numbers.
    by destruct (Z.leb_spec b a); [lia|].
Qed.

Lemma company_range_validation_witness :
  Company.filterAll (fun _ => None)
    (Some [("minEmployees", JNum 10); ("maxEmployees", JNum 5)])
  = Throw (BadRequestError
      "instance.filters.maxEmployees must be greater than instance.filters.minEmployees")
  ∧ Company.filterAll (fun _ => None) (Some [("maxEmployees", JNum 5)])
    = Return (JStr (Company.clause [("maxEmployees", JNum 5)]))
  ∧ Company.filterAll (fun _ => None)
      (Some [("minEmployees", JNum 2); ("maxEmployees", JNum 5)])
    = Return (JStr (Company.clause
                      [("minEmployees", JNum 2); ("maxEmployees", JNum 5)])).
Proof.
  split; [|split].
  - apply (proj1 (company_range_validation (fun _ => None)
             [("minEmployees", JNum 10); ("maxEmployees", JNum 5)]) 10 5);
      [reflexivity | reflexivity | lia].
  - apply (proj1 (proj2 (company_range_validation (fun _ => None)
             [("maxEmployees", JNum 5)]))).
    left. apply not_elem_of_cons. split; [discriminate | apply not_elem_of_nil].
  - apply (proj2 (proj2 (company_range_validation (fun _ => None)
             [("minEmployees", JNum 2); ("maxEmployees", JNum 5)])) 2 5);
      [reflexivity | reflexivity | lia].
Defined.





Example company_filter_unknown_key :
  ∀ STN, Company.filterAll STN (Some [("handle", JStr "c1")])
         = Return (JStr (nl +:+ "WHERE num_employees < c1")).
Proof. reflexivity. Qed.

(** ** The Job model *)

Lemma Job_piece_local (vs vs' : list JsValue) (k : string) (i : nat) :
  js_index vs i = js_index vs' i → Job.piece vs k i = Job.piece vs' k i.
Proof.
  intros Hi. unfold Job.piece, Job.keyword, Job.comparison. by rewrite Hi.
Qed.

(** The keyword of a piece is [WHERE] exactly at index 0 with a truthy
    value; otherwise it is empty for a falsy [hasEquity] and [AND] in every
    other case. *)
Lemma Job_keyword_cases (vs : list JsValue) (k : string) (idx : nat) :
  Job.keyword vs k idx =
  if bool_decide (idx = 0%nat) && ToBoolean (js_index vs idx) then nl +:+ "WHERE"
  else if bool_decide (k = "hasEquity") && negb (ToBoolean (js_index vs idx)) then ""
       else nl +:+ "AND".
Proof.
  unfold Job.keyword, js_and, js_not.
  assert ((k =? "hasEquity")%string = bool_decide (k = "hasEquity")) as ->.
  { destruct (String.eqb_spec k "hasEquity");
      [by rewrite bool_decide_eq_true_2 | by rewrite bool_decide_eq_false_2]. }
  destruct idx as [|idx]; cbn [Nat.eqb ToBoolean].
  - rewrite (bool_decide_eq_true_2 (0%nat = 0%nat)) by done. cbn [andb].
    by destruct (ToBoolean (js_index vs 0)).
  - by rewrite (bool_decide_eq_false_2 (S idx = 0%nat)) by done.
Qed.

Lemma Job_comparison_cases (vs : list JsValue) (k : string) (idx : nat) :
  Job.comparison vs k idx =
  if decide (k = "title")
  then "lower(title) LIKE lower('%' || '" +:+ ToString (js_index vs idx) +:+ "' || '%')"
  else if decide (k = "minSalary")
       then "salary >= " +:+ ToString (js_index vs idx)
       else if bool_decide (k = "hasEquity") && ToBoolean (js_index vs idx)
            then "equity > 0"
            else "".
Proof.
  unfold Job.comparison, js_and.
  destruct (String.eqb_spec k "title"); [by rewrite decide_True|].
  rewrite decide_False by done.
  destruct (String.eqb_spec k "minSalary"); [by rewrite decide_True|].
  rewrite decide_False by done.
  destruct (String.eqb_spec k "hasEquity"); cbn.
  - by rewrite bool_decide_eq_true_2.
  - by rewrite bool_decide_eq_false_2.
Qed.

Lemma Job_clause_split (fs1 fs2 : JsObject) (k : string) (v : JsValue) :
  Job.clause (fs1 ++ (k, v) :: fs2)
  = Job.clause fs1
    +:+ (if bool_decide (fs1 = []) && ToBoolean v then nl +:+ "WHERE"
         else if bool_decide (k = "hasEquity") && negb (ToBoolean v) then ""
              else nl +:+ "AND")
    +:+ " "
    +:+ (if decide (k = "title")
         then "lower(title) LIKE lower('%' || '" +:+ ToString v +:+ "' || '%')"
         else if decide (k = "minSalary")
              then "salary >= " +:+ ToString v
              else if bool_decide (k = "hasEquity") && ToBoolean v
                   then "equity > 0"
                   else "")
    +:+ pieces_from (Job.piece (Object_values (fs1 ++ (k, v) :: fs2)))
                    (S (length fs1)) (Object_keys fs2).
Proof.
  unfold Job.clause.
  rewrite (reduce_clause_split Job.piece Job_piece_local fs1 fs2 k v).
  f_equal. unfold Job.piece at 1.
  rewrite Job_keyword_cases, Job_comparison_cases, js_index_values.
  rewrite !append_assoc. f_equal.
  destruct fs1; done.
Qed.

Example job_filter_title :
  Job.filterAll (Some [("title", JStr "j1")])
  = JStr (nl +:+ "WHERE lower(title) LIKE lower('%' || 'j1' || '%')").
Proof. reflexivity. Qed.

Example job_filter_min_salary :
  Job.filterAll (Some [("minSalary", JNum 1)]) = JStr (nl +:+ "WHERE salary >= 1").
Proof. reflexivity. Qed.

Example job_filter_has_equity :
  Job.filterAll (Some [("hasEquity", JBool true)]) = JStr (nl +:+ "WHERE equity > 0").
Proof. reflexivity. Qed.

Example job_filter_all_keys :
  Job.filterAll (Some [("title", JStr "j1"); ("hasEquity", JBool true);
                       ("minSalary", JNum 10)])
  = JStr (nl +:+ "WHERE lower(title) LIKE lower('%' || 'j1' || '%')" +:+
          nl +:+ "AND equity > 0" +:+ nl +:+ "AND salary >= 10").
Proof. reflexivity. Qed.

Example job_filter_absent :
  Job.filterAll None = JUndefined ∧ query_text (Job.filterAll None) = "".
Proof. done. Qed.

(** The keyword is taken from the index and the value, not from what has
    been emitted: a first filter with a falsy value is given [AND]. *)
Example job_filter_zero_salary :
  Job.filterAll (Some [("minSalary", JNum 0)]) = JStr (nl +:+ "AND salary >= 0").
Proof. reflexivity. Qed.

(** C1, evaluated on [{hasEquity: false, title: "eng"}]: the clause is a
    space followed by the title comparison under the keyword [AND]; it
    holds no [WHERE].  The same happens for every title value and whatever
    filters follow. *)
Theorem job_filter_false_equity_then_title :
  Job.filterAll (Some [("hasEquity", JBool false); ("title", JStr "eng")])
  = JStr (" " +:+ nl +:+ "AND lower(title) LIKE lower('%' || 'eng' || '%')")
  ∧ sql_tokens (" " +:+ nl +:+ "AND lower(title) LIKE lower('%' || 'eng' || '%')")
    = [TWord "AND"; TWord "lower"; TSym "("; TWord "title"; TSym ")";
       TWord "LIKE"; TWord "lower"; TSym "("; TLit "%"; TConcat; TLit "eng";
       TConcat; TLit "%"; TSym ")"]
  ∧ ∀ (v : JsValue) (fs2 : JsObject),
      ∃ rest,
        Job.filterAll (Some (("hasEquity", JBool false) :: ("title", v) :: fs2))
        = JStr (" " +:+ nl +:+ "AND lower(title) LIKE lower('%' || '"
                +:+ ToString v +:+ "' || '%')" +:+ rest).
Proof.
  split; [reflexivity|]. split; [reflexivity|].
  intros v fs2. eexists. unfold Job.filterAll.
  change (("hasEquity", JBool false) :: ("title", v) :: fs2)
    with ([("hasEquity", JBool false)] ++ ("title", v) :: fs2).
  rewrite (Job_clause_split [("hasEquity", JBool false)] fs2 "title" v).
  rewrite decide_True by done.
  rewrite (bool_decide_eq_false_2 ("title" = "hasEquity")) by done.
  rewrite (bool_decide_eq_false_2 ([("hasEquity", JBool false)] = [])) by done.
  cbn [andb]. rewrite <- (append_assoc (ToString v)). reflexivity.
Qed.

(** C6. A [hasEquity] filter with value [true] adds the predicate
    [equity > 0] under its keyword; with value [false] it adds a single
    space, that is no keyword and no predicate; no other key ever adds
    [equity > 0], so without the key the predicate is not emitted; and
    [{hasEquity: false}] alone gives a blank clause. *)
Theorem job_has_equity (fs1 fs2 : JsObject) :
  (∃ rest,
     Job.filterAll (Some (fs1 ++ ("hasEquity", JBool true) :: fs2))
     = JStr (Job.clause fs1
             +:+ (if decide (fs1 = []) then nl +:+ "WHERE" else nl +:+ "AND")
             +:+ " equity > 0" +:+ rest)
     ∧ (fs2 = [] → rest = ""))
  ∧ (∃ rest,
       Job.filterAll (Some (fs1 ++ ("hasEquity", JBool false) :: fs2))
       = JStr (Job.clause fs1 +:+ " " +:+ rest)
       ∧ (fs2 = [] → rest = ""))
  ∧ (∀ vs k idx, Job.comparison vs k idx = "equity > 0" → k = "hasEquity")
  ∧ Job.filterAll (Some [("hasEquity", JBool false)]) = JStr " "
  ∧ blank (query_text (Job.filterAll (Some [("hasEquity", JBool false)]))).
Proof.
  split; [|split; [|split; [|split]]].
  - eexists. split.
    + unfold Job.filterAll. rewrite Job_clause_split. cbn [ToBoolean negb andb].
      rewrite andb_true_r, andb_false_r.
      destruct fs1; reflexivity.
    + by intros ->.
  - eexists. split.
    + unfold Job.filterAll. rewrite Job_clause_split. cbn [ToBoolean negb andb].
      rewrite !andb_false_r. reflexivity.
    + by intros ->.
  - intros vs k idx. rewrite Job_comparison_cases.
    destruct (decide (k = "title")); [discriminate|].
    destruct (decide (k = "minSalary")); [discriminate|].
    destruct (bool_decide_reflect (k = "hasEquity")); [done|]. discriminate.
  - reflexivity.
  - reflexivity.
Qed.

Lemma job_has_equity_witness :
  (∃ rest,
     Job.filterAll (Some ([("title", JStr "j1")] ++ ("hasEquity", JBool true) :: []))
     = JStr (Job.clause [("title", JStr "j1")]
             +:+ (if decide ([("title", JStr "j1")] = []) then nl +:+ "WHERE"
                  else nl +:+ "AND")
             +:+ " equity > 0" +:+ rest)
     ∧ (@nil (string * JsValue) = [] → rest = ""))
  ∧ (∃ rest,
       Job.filterAll (Some ([("title", JStr "j1")] ++ ("hasEquity", JBool false) :: []))
       = JStr (Job.clause [("title", JStr "j1")] +:+ " " +:+ rest)
       ∧ (@nil (string * JsValue) = [] → rest = "")).
Proof.
  pose proof (job_has_equity [("title", JStr "j1")] []) as (H1 & H2 & _).
  exact (conj H1 H2).
Defined.

(** C8. A [title] filter with value [v] adds, after the clause of the
    filters before it and a keyword, a comparison of the lower-cased title
    with the lower-cased pattern into which [v] is spliced as text; for
    [{title: "j1"}] the clause is equivalent to
    [WHERE lower(title) LIKE lower('%j1%')]. *)
Theorem job_title_comparison :
  (∀ (fs1 fs2 : JsObject) (v : JsValue),
     ∃ kw rest,
       Job.filterAll (Some (fs1 ++ ("title", v) :: fs2))
       = JStr (Job.clause fs1 +:+ kw
               +:+ " lower(title) LIKE lower('%' || '" +:+ ToString v +:+ "' || '%')"
               +:+ rest)
       ∧ (kw = nl +:+ "WHERE" ∨ kw = nl +:+ "AND")
       ∧ (fs2 = [] → rest = ""))
  ∧ Job.filterAll (Some [("title", JStr "j1")])
    = JStr (nl +:+ "WHERE lower(title) LIKE lower('%' || 'j1' || '%')")
  ∧ sql_equiv (nl +:+ "WHERE lower(title) LIKE lower('%' || 'j1' || '%')")
              "WHERE lower(title) LIKE lower('%j1%')".
Proof.
  split; [|split; [reflexivity | unfold sql_equiv; vm_compute; reflexivity]].
  intros fs1 fs2 v.
  exists (if bool_decide (fs1 = []) && ToBoolean v then nl +:+ "WHERE" else nl +:+ "AND"),
         (pieces_from (Job.piece (Object_values (fs1 ++ ("title", v) :: fs2)))
                      (S (length fs1)) (Object_keys fs2)).
  split; [|split].
  - unfold Job.filterAll. rewrite Job_clause_split.
    rewrite decide_True by done.
    rewrite (bool_decide_eq_false_2 ("title" = "hasEquity")) by done.
    cbn [andb]. rewrite <- (append_assoc (ToString v)). reflexivity.
  - destruct (bool_decide (fs1 = []) && ToBoolean v); auto.
  - by intros ->.
Qed.

(** ** The statements of the update methods *)

(** A key that is not the empty string never gets an empty column name:
    an empty alias falls back to the key. *)
Lemma column_nonempty (A : gmap string string) (k : string) :
  k ≠ "" → column A k ≠ "".
Proof.
  intros Hk. rewrite column_cases. destruct (A !! k) as [c|]; [|done].
  by destruct (decide (c = "")).
Qed.

(** No assignment of the SET clause names a zero-length identifier, as
    long as no key of the payload is the empty string. *)
Theorem sqlForPartialUpdate_no_empty_identifier
    (P : JsObject) (A : gmap string string) :
  P ≠ [] →
  "" ∉ Object_keys P →
  ∃ cols : list string,
    sqlForPartialUpdate P A =
      Return {| setCols := join ", " (zip_with assignment cols (seq 1 (length P)));
                values := Object_values P |}
    ∧ length cols = length P
    ∧ Forall (fun col => col ≠ "") cols.
Proof.
  intros HP Hkeys. exists (column A <$> Object_keys P). split; [|split].
  - rewrite (sqlForPartialUpdate_returns P A HP). do 2 f_equal.
    rewrite zip_with_fmap_l.
    rewrite <- (length_fmap fst P).
    by rewrite <- (imap_zip_with_seq (fun k pos => assignment (column A k) pos)).
  - unfold Object_keys. by rewrite !length_fmap.
  - apply Forall_fmap, Forall_forall. intros k Hk. cbn.
    apply column_nonempty. by intros ->.
Qed.

Lemma sqlForPartialUpdate_no_empty_identifier_witness :
  ∃ cols : list string,
    sqlForPartialUpdate [("logoUrl", JNull)] {["logoUrl" := ""]} =
      Return {| setCols := join ", " (zip_with assignment cols
                                        (seq 1 (length [("logoUrl", JNull)])));
                values := Object_values [("logoUrl", JNull)] |}
    ∧ length cols = length [("logoUrl", JNull)]
    ∧ Forall (fun col => col ≠ "") cols.
Proof.
  apply (sqlForPartialUpdate_no_empty_identifier
           [("logoUrl", JNull)] {["logoUrl" := ""]}).
  - discriminate.
  - apply not_elem_of_cons. split; [discriminate | apply not_elem_of_nil].
Defined.

(** The scan of a SET clause that is followed by more text. *)
Lemma scan_join_then (cols : list string) (i : nat) (c : ascii) (rest : string) :
  cols ≠ [] →
  forallb (fun col => negb (has_dquote col)) cols = true →
  digit c = None →
  scan ScanText (join ", " (zip_with assignment cols (seq (S i) (length cols)))
                 +:+ String c rest)
  = (N.of_nat <$> seq (S i) (length cols)) ++ scan (scan_start c) rest.
Proof.
  unfold join. intros Hne Hcols Hc. revert i.
  induction cols as [|col cols IH]; intros i; [done|].
  cbn in Hcols. apply andb_true_iff in Hcols as [Hcol Hcols].
  apply negb_true_iff in Hcol.
  destruct cols as [|col' cols].
  - change (scan ScanText (assignment col (S i) +:+ String c rest)
            = N.of_nat (S i) :: scan (scan_start c) rest).
    rewrite scan_assignment by done. cbn [scan]. by rewrite Hc.
  - specialize (IH ltac:(done) Hcols (S i)).
    change (scan ScanText
              ((assignment col (S i) +:+ ", " +:+
                String.concat ", "
                  (zip_with assignment (col' :: cols)
                            (seq (S (S i)) (length (col' :: cols)))))
               +:+ String c rest)
            = N.of_nat (S i)
              :: (N.of_nat <$> seq (S (S i)) (length (col' :: cols)))
                 ++ scan (scan_start c) rest).
    rewrite !append_assoc. rewrite scan_assignment by done.
    change (scan (ScanParam (Some ?n)) (", " +:+ ?r)) with (n :: scan ScanText r).
    by rewrite IH.
Qed.

Lemma sqlForPartialUpdate_zip (P : JsObject) (A : gmap string string) :
  P ≠ [] →
  sqlForPartialUpdate P A =
  Return {| setCols := join ", " (zip_with assignment (column A <$> Object_keys P)
                                    (seq 1 (length (column A <$> Object_keys P))));
            values := Object_values P |}.
Proof.
  intros HP. rewrite (sqlForPartialUpdate_returns P A HP). do 2 f_equal.
  rewrite zip_with_fmap_l, length_fmap.
  by rewrite <- (imap_zip_with_seq (fun k pos => assignment (column A k) pos)).
Qed.

Lemma plain_columns (A : gmap string string) (keys : list string) :
  forallb (fun k => negb (has_dquote (column A k))) keys = true →
  forallb (fun col => negb (has_dquote col)) (column A <$> keys) = true.
Proof.
  intros Hkeys. rewrite forallb_forall in Hkeys. apply forallb_forall.
  intros col Hcol. apply in_map_iff in Hcol as (k & <- & Hk). by apply Hkeys.
Qed.

(** The statement of [Company.update] holds the placeholders of the SET
    clause and then one more, for the handle. *)
Lemma Company_update_sql_scan (cols : list string) :
  cols ≠ [] →
  forallb (fun col => negb (has_dquote col)) cols = true →
  placeholders
    (CompanyModel.update_sql
       (join ", " (zip_with assignment cols (seq 1 (length cols))))
       ("$" +:+ pretty (S (length cols))))
  = N.of_nat <$> seq 1 (S (length cols)).
Proof.
  intros Hne Hcols. unfold placeholders, CompanyModel.update_sql.
  lazymatch goal with
  | |- scan ScanText (_ +:+ _ +:+ _ +:+ ?sc +:+ _ +:+ ?rest) = ?R =>
      change (scan ScanText (sc +:+ String " "%char rest) = R)
  end.
  rewrite scan_join_then by done.
  lazymatch goal with
  | |- _ ++ scan _ (_ +:+ _ +:+ (_ +:+ ?num) +:+ ?rest) = ?R =>
      change (scan (scan_start " "%char) _)
        with (scan (ScanParam None) (num +:+ rest))
  end.
  rewrite scan_placeholder.
  rewrite seq_S, fmap_app. f_equal.
Qed.

(** [Company.update] on a payload with a key sends one statement.  Its
    parameters are the payload's values followed by the handle; when no
    column name holds a double quote, the statement's placeholders are
    1, ..., n+1, one per parameter, the last one for the handle.  Without a
    row in the result the method throws [NotFoundError]; otherwise it
    returns the first row and sends nothing more. *)
Theorem Company_update_statement (handle : JsValue) (data : JsObject) :
  data ≠ [] →
  forallb (fun k => negb (has_dquote (column CompanyModel.update_aliases k)))
          (Object_keys data) = true →
  ∃ text k,
    CompanyModel.update handle data
    = Query text (Object_values data ++ [handle]) k
    ∧ placeholders text
      = N.of_nat <$> seq 1 (length (Object_values data ++ [handle]))
    ∧ k [] = Done (Throw (NotFoundError ("No company: " +:+ ToString handle)))
    ∧ ∀ row rows, k (row :: rows) = Done (Return row).
Proof.
  intros Hdata Hkeys. unfold CompanyModel.update.
  rewrite (sqlForPartialUpdate_zip data _ Hdata).
  do 2 eexists. split; [reflexivity|]. split; [|split; [reflexivity|done]].
  cbn [setCols values]. rewrite length_app, !Nat.add_1_r.
  assert (length (Object_values data)
          = length (column CompanyModel.update_aliases <$> Object_keys data)) as ->.
  { unfold Object_values, Object_keys. by rewrite !length_fmap. }
  apply Company_update_sql_scan; [|by apply plain_columns].
  destruct data; [done|discriminate].
Qed.

Lemma Company_update_statement_witness :
  ∃ text k,
    CompanyModel.update (JStr "c1") data
    = Query text (Object_values data ++ [JStr "c1"]) k
    ∧ placeholders text
      = N.of_nat <$> seq 1 (length (Object_values data ++ [JStr "c1"]))
    ∧ k [] = Done (Throw (NotFoundError ("No company: " +:+ ToString (JStr "c1"))))
    ∧ ∀ row rows, k (row :: rows) = Done (Return row).
Proof.
  apply (Company_update_statement (JStr "c1") data); [discriminate | reflexivity].
Defined.

Example Company_update_test :
  ∃ k, CompanyModel.update (JStr "c1") [("name", JStr "New"); ("logoUrl", JNull)]
       = Query (CompanyModel.update_sql
                  (dquote +:+ "name" +:+ dquote +:+ "=$1, " +:+
                   dquote +:+ "logo_url" +:+ dquote +:+ "=$2") "$3")
               [JStr "New"; JNull; JStr "c1"] k.
Proof. eexists. vm_compute. reflexivity. Qed.







(** The update methods fail before they reach the database.  With a
    payload without key [Company.update] throws the [BadRequestError] of
    [sqlForPartialUpdate] and sends nothing.  [Job.update] checks the
    identifier first: an identifier that is not a number gives
    [NotFoundError] whatever the payload, and only a numeric identifier
    with an empty payload gives [BadRequestError]. *)
Theorem update_fails_before_query (StringToNumber : string -> option Z)
    (handle id : JsValue) (data : JsObject) :
  CompanyModel.update handle [] = Done (Throw (BadRequestError "No data"))
  ∧ (isNaN StringToNumber id = true →
     JobModel.update StringToNumber id data
     = Done (Throw (NotFoundError ("No job: " +:+ ToString id))))
  ∧ (isNaN StringToNumber id = false →
     JobModel.update StringToNumber id []
     = Done (Throw (BadRequestError "No data"))).
Proof.
  split; [reflexivity|]. unfold JobModel.update.
  split; intros ->; reflexivity.
Qed.

Lemma update_fails_before_query_witness :
  JobModel.update (fun _ => None) (JStr "abc") []
  = Done (Throw (NotFoundError ("No job: " +:+ ToString (JStr "abc"))))
  ∧ JobModel.update (fun _ => None) (JNum 7) []
    = Done (Throw (BadRequestError "No data")).
Proof.
  pose proof (update_fails_before_query (fun _ => None) JNull (JStr "abc") [])
    as (_ & Hnan & _).
  pose proof (update_fails_before_query (fun _ => None) JNull (JNum 7) [])
    as (_ & _ & Hnum).
  split; [apply Hnan | apply Hnum]; reflexivity.
Defined.

(** ** [Company.get] *)

Lemma reduce_from_snoc {X Y : Type} (f : Y -> X -> nat -> Y)
    (l : list X) (x : X) (i : nat) (acc : Y) :
  reduce_from f i (l ++ [x]) acc = f (reduce_from f i l acc) x (i + length l)%nat.
Proof.
  revert i acc. induction l as [|y l IH]; intros i acc; cbn.
  - by rewrite Nat.add_0_r.
  - rewrite IH. by rewrite Nat.add_succ_r.
Qed.

(** Before the last row the callback returns nothing. *)
Lemma get_step_before_last (rows l : list JsObject) (i : nat) (acc : CompanyModel.Acc) :
  (i + length l < length rows)%nat →
  reduce_from (CompanyModel.get_step rows) i l acc
  = if decide (l = []) then acc else CompanyModel.AccUndefined.
Proof.
  revert i acc. induction l as [|y l IH]; intros i acc Hlen; [done|].
  cbn [reduce_from]. cbn [length] in Hlen.
  rewrite IH by lia. unfold CompanyModel.get_step.
  destruct (Z.eqb_spec (Z.of_nat i) (Z.of_nat (length rows) - 1)); [lia|].
  by destruct (decide (l = [])).
Qed.

Lemma jobs_filter_map (rows : list JsObject) :
  omap id (CompanyModel.job_of_row <$> rows)
  = (fun j => [("id", js_get j "id"); ("title", js_get j "title");
               ("salary", js_get j "salary"); ("equity", js_get j "equity")])
    <$> filter (fun j => ToBoolean (js_get j "id") = true) rows.
Proof.
  induction rows as [|j rows IH]; [done|].
  cbn [fmap list_fmap omap list_omap]. rewrite filter_cons.
  unfold CompanyModel.job_of_row at 1.
  destruct (ToBoolean (js_get j "id")) eqn:Hid.
  - rewrite decide_True by done. cbn. f_equal. apply IH.
  - rewrite decide_False by done. apply IH.
Qed.

(** [Company.get] sends one statement with the handle as its parameter.
    On an empty result it throws [NotFoundError].  Otherwise it returns an
    object whose scalar properties are read from the last row, and whose
    jobs are, in the order of the rows, the four job columns of every row
    that has a truthy [id]; a company without job, whose single row has a
    null [id], gets an empty array. *)
Theorem Company_get_detail (handle : JsValue) :
  ∃ k,
    CompanyModel.get handle = Query CompanyModel.get_sql [handle] k
    ∧ k [] = Done (Throw (NotFoundError ("No company: " +:+ ToString handle)))
    ∧ (∀ rows last,
         k (rows ++ [last])
         = Done (Return (CompanyModel.AccDetail
             {| CompanyModel.fields :=
                  [("handle", js_get last "handle"); ("name", js_get last "name");
                   ("description", js_get last "description");
                   ("numEmployees", js_get last "numEmployees");
                   ("logoUrl", js_get last "logoUrl")];
                CompanyModel.jobs :=
                  (fun j => [("id", js_get j "id"); ("title", js_get j "title");
                             ("salary", js_get j "salary");
                             ("equity", js_get j "equity")])
                  <$> filter (fun j => ToBoolean (js_get j "id") = true)
                             (rows ++ [last]) |})))
    ∧ (∀ row, ToBoolean (js_get row "id") = false →
         ∃ c, k [row] = Done (Return (CompanyModel.AccDetail c))
              ∧ CompanyModel.jobs c = []).
Proof.
  eexists. split; [reflexivity|]. split; [reflexivity|].
  assert (∀ rows last,
    db_bind (Done (Return (rows ++ [last])))
      (fun companyRes : list JsObject =>
         if companyRes !! 0%nat is Some _
         then mret (reduce (CompanyModel.get_step companyRes)
                           CompanyModel.AccEmpty companyRes)
         else db_throw (NotFoundError ("No company: " +:+ ToString handle)))
    = Done (Return (CompanyModel.AccDetail
        {| CompanyModel.fields :=
             [("handle", js_get last "handle"); ("name", js_get last "name");
              ("description", js_get last "description");
              ("numEmployees", js_get last "numEmployees");
              ("logoUrl", js_get last "logoUrl")];
           CompanyModel.jobs :=
             (fun j => [("id", js_get j "id"); ("title", js_get j "title");
                        ("salary", js_get j "salary");
                        ("equity", js_get j "equity")])
             <$> filter (fun j => ToBoolean (js_get j "id") = true)
                        (rows ++ [last]) |}))) as Hlast.
  { intros rows last. cbn [db_bind].
    assert (is_Some ((rows ++ [last]) !! 0%nat)) as [r0 ->].
    { apply lookup_lt_is_Some. rewrite length_app. cbn. lia. }
    unfold reduce. rewrite reduce_from_snoc.
    rewrite get_step_before_last by (rewrite length_app; cbn; lia).
    unfold CompanyModel.get_step at 1.
    destruct (Z.eqb_spec (Z.of_nat (0 + length rows))
                (Z.of_nat (length (rows ++ [last])) - 1)) as [_|Hne];
      [|rewrite length_app in Hne; cbn in Hne; lia].
    rewrite jobs_filter_map.
    by destruct (decide (rows = [])). }
  split; [exact Hlast|].
  intros row Hid. eexists. split; [exact (Hlast [] row)|].
  cbn [CompanyModel.jobs app]. rewrite filter_cons, decide_False; [done|].
  by rewrite Hid.
Qed.

Lemma Company_get_detail_witness :
  ∃ k,
    CompanyModel.get (JStr "c1") = Query CompanyModel.get_sql [JStr "c1"] k
    ∧ k [] = Done (Throw (NotFoundError ("No company: " +:+ ToString (JStr "c1"))))
    ∧ ∃ c, k [[("handle", JStr "c1"); ("name", JStr "C1"); ("id", JNull)]]
           = Done (Return (CompanyModel.AccDetail c))
           ∧ CompanyModel.jobs c = [].
Proof.
  destruct (Company_get_detail (JStr "c1")) as (k & Hk & Hnone & _ & Hnojob).
  exists k. split; [exact Hk|]. split; [exact Hnone|].
  apply Hnojob. reflexivity.
Defined.

(** ** [Company.create] and [findAll] *)

(** [Company.create] first looks the handle up.  If the look-up returns a
    row it throws [BadRequestError] and the INSERT is never sent.
    Otherwise it sends the INSERT with the five fields in the order of the
    statement's columns, a field missing from the data being [undefined],
    and returns the first row of its result without a further query. *)
Theorem Company_create_duplicate_check (data : JsObject) :
  ∃ k,
    CompanyModel.create data
    = Query CompanyModel.create_check_sql [js_get data "handle"] k
    ∧ (∀ row rows,
         k (row :: rows)
         = Done (Throw (BadRequestError
                          ("Duplicate company: " +:+ ToString (js_get data "handle")))))
    ∧ ∃ k',
        k [] = Query CompanyModel.create_insert_sql
                 [js_get data "handle"; js_get data "name";
                  js_get data "description"; js_get data "numEmployees";
                  js_get data "logoUrl"] k'
        ∧ placeholders CompanyModel.create_insert_sql = [1; 2; 3; 4; 5]%N
        ∧ ∀ rows, k' rows = Done (Return (rows !! 0%nat)).
Proof.
  eexists. split; [reflexivity|]. split; [done|].
  eexists. split; [reflexivity|]. split; [reflexivity|done].
Qed.

(** [Company.findAll] with numeric bounds [minEmployees >= maxEmployees]
    throws [BadRequestError] without a query.  When a bound is missing it
    sends a single statement, without parameters, in which the clause of
    [#filterAll] stands between [FROM companies] and [ORDER BY name], and
    returns the rows as they come.  No filters and an empty filter object
    send the same statement. *)
Theorem Company_findAll_statement (StringToNumber : string -> option Z)
    (fs : JsObject) :
  (∀ a b, js_get fs "minEmployees" = JNum a →
          js_get fs "maxEmployees" = JNum b →
          a >= b →
          ∃ message,
            CompanyModel.findAll StringToNumber (Some fs)
            = Done (Throw (BadRequestError message)))
  ∧ ("minEmployees" ∉ Object_keys fs ∨ "maxEmployees" ∉ Object_keys fs →
     ∃ k, CompanyModel.findAll StringToNumber (Some fs)
          = Query (CompanyModel.findAll_sql (JStr (Company.clause fs))) [] k
          ∧ ∀ rows, k rows = Done (Return rows))
  ∧ CompanyModel.findAll StringToNumber (Some [])
    = CompanyModel.findAll StringToNumber None.
Proof.
  unfold CompanyModel.findAll. split; [|split].
  - intros a b Ha Hb Hab. eexists. unfold Company.filterAll.
    rewrite Ha, Hb, js_ge_numbers.
    destruct (Z.leb_spec b a); [reflexivity|lia].
  - intros Habsent. rewrite Company_filterAll_validated.
    + eexists. split; [reflexivity|done].
    + destruct Habsent as [Hmin|Hmax].
      * rewrite (js_get_absent fs "minEmployees" Hmin). apply js_ge_undefined_l.
      * rewrite (js_get_absent fs "maxEmployees" Hmax). apply js_ge_undefined_r.
  - reflexivity.
Qed.

Lemma Company_findAll_statement_witness :
  (∃ message,
     CompanyModel.findAll (fun _ => None)
       (Some [("minEmployees", JNum 10); ("maxEmployees", JNum 5)])
     = Done (Throw (BadRequestError message)))
  ∧ ∃ k, CompanyModel.findAll (fun _ => None) (Some [("name", JStr "net")])
         = Query (CompanyModel.findAll_sql
                    (JStr (Company.clause [("name", JStr "net")]))) [] k
         ∧ ∀ rows, k rows = Done (Return rows).
Proof.
  split.
  - apply (proj1 (Company_findAll_statement (fun _ => None)
             [("minEmployees", JNum 10); ("maxEmployees", JNum 5)]) 10 5);
      [reflexivity | reflexivity | lia].
  - apply (proj1 (proj2 (Company_findAll_statement (fun _ => None)
             [("name", JStr "net")]))).
    left. apply not_elem_of_cons. split; [discriminate | apply not_elem_of_nil].
Defined.

(** ** Where the clauses begin *)

(** The clause [Company.#filterAll] returns for a filter object with a key
    begins with the keyword [WHERE]; for an empty filter object it is the
    empty text. *)
Theorem Company_clause_begins_with_where (StringToNumber : string -> option Z)
    (fs : JsObject) :
  (∀ e, Company.filterAll StringToNumber (Some fs) ≠ Throw e) →
  (fs ≠ [] →
   ∃ rest, Company.filterAll StringToNumber (Some fs)
           = Return (JStr (nl +:+ "WHERE " +:+ rest)))
  ∧ (fs = [] → Company.filterAll StringToNumber (Some fs) = Return (JStr "")).
Proof.
  intros Hno. rewrite (Company_filterAll_not_thrown _ _ Hno). split.
  - intros Hfs. destruct fs as [|[k v] fs]; [done|].
    change ((k, v) :: fs) with ([] ++ (k, v) :: fs).
    rewrite (Company_clause_split [] fs k v). eexists. reflexivity.
  - by intros ->.
Qed.

Lemma Company_clause_begins_with_where_witness :
  ∃ rest, Company.filterAll (fun _ => None)
            (Some [("maxEmployees", JNum 5); ("name", JStr "net")])
          = Return (JStr (nl +:+ "WHERE " +:+ rest)).
Proof.
  apply (Company_clause_begins_with_where (fun _ => None)
           [("maxEmployees", JNum 5); ("name", JStr "net")]).
  - intros e. vm_compute. discriminate.
  - discriminate.
Defined.

(** The clause [Job.#filterAll] returns begins with [WHERE] when the value
    of the first filter is truthy.  When it is falsy the clause begins with
    a space (for [hasEquity]) or with [AND] (for any other key), and no
    later filter is given [WHERE] either. *)
Theorem Job_clause_begins_with_where (k : string) (v : JsValue) (fs : JsObject) :
  (ToBoolean v = true →
   ∃ rest, Job.filterAll (Some ((k, v) :: fs)) = JStr (nl +:+ "WHERE " +:+ rest))
  ∧ (ToBoolean v = false →
     ∃ rest, Job.filterAll (Some ((k, v) :: fs))
             = JStr ((if decide (k = "hasEquity") then "" else nl +:+ "AND")
                     +:+ " " +:+ rest))
  ∧ (∀ vs k' idx, idx ≠ 0%nat → Job.keyword vs k' idx ≠ nl +:+ "WHERE").
Proof.
  split; [|split].
  - intros Hv. unfold Job.filterAll.
    change ((k, v) :: fs) with ([] ++ (k, v) :: fs).
    rewrite (Job_clause_split [] fs k v).
    rewrite Hv. eexists. reflexivity.
  - intros Hv. unfold Job.filterAll.
    change ((k, v) :: fs) with ([] ++ (k, v) :: fs).
    rewrite (Job_clause_split [] fs k v).
    rewrite Hv. cbn [andb negb].
    rewrite !andb_false_r, andb_true_r.
    destruct (decide (k = "hasEquity")) as [->|Hk].
    + eexists. reflexivity.
    + rewrite bool_decide_eq_false_2 by done. eexists. reflexivity.
  - intros vs k' idx Hidx. rewrite Job_keyword_cases.
    rewrite (bool_decide_eq_false_2 (idx = 0%nat)) by done. cbn [andb].
    by destruct (bool_decide (k' = "hasEquity") && negb (ToBoolean (js_index vs idx))).
Qed.

Lemma Job_clause_begins_with_where_witness :
  (∃ rest, Job.filterAll (Some [("minSalary", JNum 10); ("hasEquity", JBool true)])
           = JStr (nl +:+ "WHERE " +:+ rest))
  ∧ (∃ rest, Job.filterAll (Some [("minSalary", JNum 0); ("hasEquity", JBool true)])
             = JStr ((if decide ("minSalary" = "hasEquity") then "" else nl +:+ "AND")
                     +:+ " " +:+ rest)).
Proof.
  split.
  - apply (proj1 (Job_clause_begins_with_where
                    "minSalary" (JNum 10) [("hasEquity", JBool true)])).
    reflexivity.
  - apply (proj1 (proj2 (Job_clause_begins_with_where
                    "minSalary" (JNum 0) [("hasEquity", JBool true)]))).
    reflexivity.
Defined.

(** ** Substring filters on values without a quote *)

Lemma lex_literal (lit s rest : string) :
  has_squote s = false →
  lex (LLit lit) (s +:+ rest) = lex (LLit (lit +:+ s)) rest.
Proof.
  revert lit. induction s as [|c s IH]; intros lit Hs.
  - by rewrite append_nil_r.
  - cbn in Hs. apply orb_false_iff in Hs as [Hc Hs].
    apply bool_decide_eq_false in Hc.
    change (String c s +:+ rest) with (String c (s +:+ rest)).
    cbn [lex]. rewrite decide_False by done.
    rewrite IH by done. by rewrite append_assoc.
Qed.

(** A [name] filter whose value holds no single quote gives a clause that
    reads as [WHERE lower(name) LIKE lower('%value%')]: the value stays
    inside the pattern literal. *)
Theorem Company_name_filter_pattern (StringToNumber : string -> option Z)
    (s : string) :
  has_squote s = false →
  ∃ text,
    Company.filterAll StringToNumber (Some [("name", JStr s)]) = Return (JStr text)
    ∧ sql_equiv text ("WHERE lower(name) LIKE lower('%" +:+ s +:+ "%')").
Proof.
  intros Hs. eexists. split; [reflexivity|].
  unfold sql_equiv, sql_tokens.
  change (lex (LText "") (Company.clause [("name", JStr s)]))
    with ([TWord "WHERE"; TWord "lower"; TSym "("%char; TWord "name";
           TSym ")"%char; TWord "LIKE"; TWord "lower"; TSym "("%char;
           TLit "%"; TConcat]
          ++ lex (LLit "") (s +:+ "' || '%')")).
  change (lex (LText "") ("WHERE lower(name) LIKE lower('%" +:+ s +:+ "%')"))
    with ([TWord "WHERE"; TWord "lower"; TSym "("%char; TWord "name";
           TSym ")"%char; TWord "LIKE"; TWord "lower"; TSym "("%char]
          ++ lex (LLit "%") (s +:+ "%')")).
  rewrite !lex_literal by done. reflexivity.
Qed.

Lemma Company_name_filter_pattern_witness :
  ∃ text,
    Company.filterAll (fun _ => None) (Some [("name", JStr "net")])
    = Return (JStr text)
    ∧ sql_equiv text ("WHERE lower(name) LIKE lower('%" +:+ "net" +:+ "%')").
Proof.
  apply (Company_name_filter_pattern (fun _ => None) "net"). reflexivity.
Defined.

(** A [title] filter whose value is not empty and holds no single quote
    gives a clause that reads as [WHERE lower(title) LIKE lower('%value%')]. *)
Theorem Job_title_filter_pattern (s : string) :
  s ≠ "" →
  has_squote s = false →
  ∃ text,
    Job.filterAll (Some [("title", JStr s)]) = JStr text
    ∧ sql_equiv text ("WHERE lower(title) LIKE lower('%" +:+ s +:+ "%')").
Proof.
  intros Hne Hs. eexists. split; [reflexivity|].
  unfold sql_equiv, sql_tokens.
  assert (Job.clause [("title", JStr s)]
          = nl +:+ "WHERE lower(title) LIKE lower('%' || '" +:+ s +:+ "' || '%')")
    as ->.
  { change [("title", JStr s)] with ([] ++ ("title", JStr s) :: []).
    rewrite (Job_clause_split [] [] "title" (JStr s)). cbn [ToBoolean].
    destruct (String.eqb_spec s ""); [done|].
    change (pieces_from _ _ (Object_keys [])) with "".
    rewrite append_nil_r. reflexivity. }
  change (lex (LText "")
            (nl +:+ "WHERE lower(title) LIKE lower('%' || '" +:+ s +:+ "' || '%')"))
    with ([TWord "WHERE"; TWord "lower"; TSym "("%char; TWord "title";
           TSym ")"%char; TWord "LIKE"; TWord "lower"; TSym "("%char;
           TLit "%"; TConcat]
          ++ lex (LLit "") (s +:+ "' || '%')")).
  change (lex (LText "") ("WHERE lower(title) LIKE lower('%" +:+ s +:+ "%')"))
    with ([TWord "WHERE"; TWord "lower"; TSym "("%char; TWord "title";
           TSym ")"%char; TWord "LIKE"; TWord "lower"; TSym "("%char]
          ++ lex (LLit "%") (s +:+ "%')")).
  rewrite !lex_literal by done. reflexivity.
Qed.

Lemma Job_title_filter_pattern_witness :
  ∃ text,
    Job.filterAll (Some [("title", JStr "j1")]) = JStr text
    ∧ sql_equiv text ("WHERE lower(title) LIKE lower('%" +:+ "j1" +:+ "%')").
Proof.
  apply (Job_title_filter_pattern "j1"); [discriminate | reflexivity].
Defined.

(** With a single quote in the value the literal ends early and the rest
    of the value is read as SQL. *)
Example Company_name_filter_quote :
  ∀ STN, ∃ text,
    Company.filterAll STN (Some [("name", JStr "x' OR 'a' = 'a")])
    = Return (JStr text)
    ∧ fold_literals None (sql_tokens text)
      = [TWord "WHERE"; TWord "lower"; TSym "("%char; TWord "name";
         TSym ")"%char; TWord "LIKE"; TWord "lower"; TSym "("%char;
         TLit "%x"; TWord "OR"; TLit "a"; TWord "="; TLit "a%"; TSym ")"%char].
Proof. intros STN. eexists. split; reflexivity. Qed.

(** ** What the statement of [Company.update] depends on *)

(** The text [Company.update] sends is fixed by the keys of the payload:
    two calls with the same keys send the same text, whatever the values
    and the handles, which travel as parameters only. *)
Theorem Company_update_text_ignores_values
    (handle1 handle2 : JsValue) (data1 data2 : JsObject) :
  data1 ≠ [] →
  Object_keys data1 = Object_keys data2 →
  ∃ text k1 k2,
    CompanyModel.update handle1 data1
    = Query text (Object_values data1 ++ [handle1]) k1
    ∧ CompanyModel.update handle2 data2
      = Query text (Object_values data2 ++ [handle2]) k2.
Proof.
  intros Hdata Hkeys.
  assert (data2 ≠ []) as Hdata2.
  { intros ->. destruct data1; [done|discriminate]. }
  assert (length (Object_values data1) = length (Object_values data2)) as Hlen.
  { unfold Object_values. rewrite !length_fmap.
    rewrite <- (length_fmap fst data1), <- (length_fmap fst data2).
    unfold Object_keys in Hkeys. by rewrite Hkeys. }
  unfold CompanyModel.update.
  rewrite (sqlForPartialUpdate_returns data1 _ Hdata).
  rewrite (sqlForPartialUpdate_returns data2 _ Hdata2).
  do 3 eexists. split; [reflexivity|].
  cbn [db_call mbind Db_bind db_bind setCols values].
  rewrite <- Hkeys, <- Hlen. reflexivity.
Qed.

Lemma Company_update_text_ignores_values_witness :
  ∃ text k1 k2,
    CompanyModel.update (JStr "c1") [("name", JStr "New")]
    = Query text (Object_values [("name", JStr "New")] ++ [JStr "c1"]) k1
    ∧ CompanyModel.update (JStr "c2'; --") [("name", JStr "x' OR 1=1")]
      = Query text (Object_values [("name", JStr "x' OR 1=1")] ++ [JStr "c2'; --"]) k2.
Proof.
  apply (Company_update_text_ignores_values
           (JStr "c1") (JStr "c2'; --")
           [("name", JStr "New")] [("name", JStr "x' OR 1=1")]);
    [discriminate | reflexivity].
Defined.

(** ** The users routes *)

(** The [catch] block of the application route passes on, unchanged, every
    error whose code is neither 23503 nor 23505; and whatever it caught,
    the only errors it makes are the three of its branches, [NotFoundError]
    being made for code 23503 only. *)
Theorem apply_catch_passes_other_errors (err : JsObject) :
  (js_get err "code" ≠ JStr "23503" →
   js_get err "code" ≠ JStr "23505" →
   UsersRoutes.apply_catch err = UsersRoutes.NextCaught err)
  ∧ (∀ e, UsersRoutes.apply_catch err = UsersRoutes.NextNew e →
          (e = BadRequestError "No user with that username"
           ∧ js_get err "code" = JStr "23503")
          ∨ (e = NotFoundError "No job with that id"
             ∧ js_get err "code" = JStr "23503")
          ∨ (e = BadRequestError "Duplicate application"
             ∧ js_get err "code" = JStr "23505")).
Proof.
  unfold UsersRoutes.apply_catch. split.
  - intros H03 H05. by rewrite !bool_decide_eq_false_2 by done.
  - intros e.
    destruct (bool_decide_reflect (js_get err "code" = JStr "23503")) as [H03|H03];
      destruct (bool_decide_reflect (js_get err "code" = JStr "23505")) as [H05|H05];
      cbn [andb];
      repeat (match goal with
              | |- context [if ?b then _ else _] => destruct b
              end);
      intros [= <-] || discriminate; auto.
Qed.

Lemma apply_catch_passes_other_errors_witness :
  UsersRoutes.apply_catch [("code", JStr "42P01"); ("detail", JStr "already exists")]
  = UsersRoutes.NextCaught [("code", JStr "42P01"); ("detail", JStr "already exists")].
Proof.
  apply (proj1 (apply_catch_passes_other_errors
                  [("code", JStr "42P01"); ("detail", JStr "already exists")]));
    discriminate.
Defined.

Example apply_catch_duplicate :
  UsersRoutes.apply_catch
    [("code", JStr "23505");
     ("detail", JStr "Key (username, job_id)=(u1, 1) already exists.")]
  = UsersRoutes.NextNew (BadRequestError "Duplicate application").
Proof. vm_compute. reflexivity. Qed.

(** ** Numeric filters *)














(** Bounds that arrive as strings are compared as text by the range check,
    character by character: it throws exactly when [minEmployees] is not
    before [maxEmployees] in that order, so ["10"] against ["5"] passes. *)
Theorem Company_string_bounds (StringToNumber : string -> option Z)
    (fs : JsObject) (a b : string) :
  js_get fs "minEmployees" = JStr a →
  js_get fs "maxEmployees" = JStr b →
  (String.ltb a b = true →
   Company.filterAll StringToNumber (Some fs) = Return (JStr (Company.clause fs)))
  ∧ (String.ltb a b = false →
     ∃ message,
       Company.filterAll StringToNumber (Some fs)
       = Throw (BadRequestError message)).
Proof.
  intros Ha Hb. unfold Company.filterAll, js_ge, IsLessThan. rewrite Ha, Hb.
  split; intros ->; [reflexivity|eauto].
Qed.

Lemma Company_string_bounds_witness :
  Company.filterAll (fun _ => None)
    (Some [("minEmployees", JStr "10"); ("maxEmployees", JStr "5")])
  = Return (JStr (Company.clause
                    [("minEmployees", JStr "10"); ("maxEmployees", JStr "5")])).
Proof.
  apply (proj1 (Company_string_bounds (fun _ => None)
                  [("minEmployees", JStr "10"); ("maxEmployees", JStr "5")]
                  "10" "5" eq_refl eq_refl)).
  reflexivity.
Defined.
